(** * Progressive spectral camera: construction, channel planning, engines

    A shallow embedding of [raysect/optical/observer/refactored_cameras.py]
    (classes [Camera] and [PinholeCamera]).

    Modelling conventions.
    - A method that can raise returns a [result]; a method that mutates
      [self] takes the camera and returns the updated camera, also when it
      raises (the writes made before the raise persist).
    - [Camera.__init__] stores [np.empty(pixels, dtype=object)] in
      [self._pixels]: a two-dimensional array of shape [pixels] whose cells
      hold [None].  No statement of the file stores into it (the [pixels]
      setter raises), so the array is modelled by its shape.  What the
      methods do with it follows NumPy: [self._pixels[i]] is row [i], a
      one-dimensional array of [None], or [IndexError]; arithmetic and
      comparisons on such a row act on its cells and raise [TypeError] unless
      the row is empty; a row is not an integer ([range], [zeros] and
      [math.ceil] raise [TypeError] on it).
    - Wavelengths are binary64 floats (Rocq's primitive floats), so that the
      channel planner rounds as the code does.  Tristimulus values and
      weights are idealised as exact rationals ([Qc]).  Python ints are
      unbounded; an int that is converted to a float is taken to be in the
      range of a float.
    - [self.rays] is an attribute that the methods read but that
      [Camera.__init__] never assigns; it is an [option].
    - Collaborators outside the file (colour conversion, the sampling method
      of the worker processes, the geometry hook of derived classes, [tan])
      are section variables.  The display is not modelled.  The wall clock
      is a section variable that says at each progress update whether the
      progress line is due; of the line, the computations that can raise are
      kept.
    - The worker-pool engine is an interleaving of the coordinator, the
      producers and the workers, driven by a schedule; the queues are FIFO
      lists.  The coordinator starts the producer and the workers of a
      channel and evaluates [range(total_pixels)] in one step. *)

From Stdlib Require Import ZArith QArith Qcanon Lia.
From Stdlib Require Floats.
From stdpp Require Import base tactics numbers option list strings.

Local Open Scope Z_scope.

(** ** Exceptions and fallible computations *)

Inductive exn : Set :=
| TypeError
| NotImplementedError
| ZeroDivisionError
| AttributeError
| IndexError
| ValueError.

(** How far a call has got: it returned, it raised, or (worker-pool engine
    only) the coordinator has not finished under the schedule given. *)
Inductive status : Set :=
| Done
| Raised (e : exn)
| Pending.

Inductive result (A : Type) : Type :=
| Ok (a : A)
| Raise (e : exn).
Arguments Ok {A} a.
Arguments Raise {A} e.

Global Instance result_ret : MRet result := fun _ a => Ok a.
Global Instance result_bind : MBind result := fun _ _ f m =>
  match m with
  | Ok a => f a
  | Raise e => Raise e
  end.
Global Instance result_fmap : FMap result := fun _ _ f m =>
  match m with
  | Ok a => Ok (f a)
  | Raise e => Raise e
  end.

(** A Python [for a in l: body] over a state [S]: the first raise stops the
    loop and keeps the state reached. *)
Fixpoint for_each {A S : Type} (body : A -> S -> S * result unit)
    (l : list A) (s : S) : S * result unit :=
  match l with
  | [] => (s, Ok tt)
  | a :: l' =>
      match body a s with
      | (s', Ok _) => for_each body l' s'
      | (s', Raise e) => (s', Raise e)
      end
  end.

(** A loop that collects what its body yields: the first raise stops it. *)
Fixpoint collect {A B : Type} (body : A -> result (list B)) (l : list A)
  : result (list B) :=
  match l with
  | [] => Ok []
  | a :: l' => bs ← body a; rest ← collect body l'; Ok (bs ++ rest)
  end.

(** ** Numbers *)

(** Tristimulus values and weights: exact rationals. *)
Abbreviation float := Qc (only parsing).

(** Wavelengths: binary64 floats. *)
Abbreviation binary64 := PrimFloat.float (only parsing).

(** [float(n)] for an int [n], rounded to nearest. *)
Definition float_of_int (n : Z) : binary64 :=
  FloatOps.SF2Prim
    (SpecFloat.binary_normalize FloatOps.prec FloatOps.emax n 0 false).

(** [x / n] for a float [x] and an int [n]: the int is converted and a zero
    divisor raises (only the int 0 converts to a zero float). *)
Definition float_div_int (x : binary64) (n : Z) : result binary64 :=
  if decide (n = 0) then Raise ZeroDivisionError
  else Ok (PrimFloat.div x (float_of_int n)).

(** [a / b] on exact numbers. *)
Definition py_div (a b : float) : result float :=
  if decide (b = 0%Qc) then Raise ZeroDivisionError else Ok (a / b)%Qc.

(** [range(n)] for a Python int [n]: empty when [n <= 0]. *)
Definition range (n : Z) : list Z := Z.of_nat <$> seq 0 (Z.to_nat n).

(** Boolean equality on exact numbers, for evaluating concrete runs. *)
Definition float_eqb (a b : float) : bool := Qeq_bool (this a) (this b).

Lemma float_eqb_eq a b : float_eqb a b = true <-> a = b.
Proof.
  unfold float_eqb. rewrite Qeq_bool_iff. split.
  - apply Qc_is_canon.
  - intros ->. reflexivity.
Qed.

Lemma Qc_of_Z_eq0 n : Qc_of_Z n = 0%Qc <-> n = 0.
Proof. rewrite <- Z2Qc_inj_0. apply Z2Qc_inj_iff. Qed.

(** ** Object arrays and the values computed from them *)

(** [np.empty(pixels, dtype=object)]: [fst shape] rows of [snd shape] cells,
    every cell [None]. *)
Record ndarray : Set := np_array { shape : nat * nat }.

Definition np_empty (pixels : nat * nat) : ndarray := np_array pixels.

(** The values of the expressions computed from [self._pixels] and the
    statistics: Python ints and floats, and one-dimensional object arrays
    whose [len] cells hold [None] (the rows of [self._pixels] and what
    arithmetic on empty rows gives). *)
Inductive value : Type :=
| Int (n : Z)
| Float (q : float)
| NoneArray (len : nat).

(** The object a cell of [self._pixels] holds. *)
Inductive object : Set :=
| PyNone.

(** [a[i]] on a two-dimensional array: row [i]. *)
Definition np_getitem (a : ndarray) (i : nat) : result value :=
  if decide (i < fst (shape a))%nat then Ok (NoneArray (snd (shape a)))
  else Raise IndexError.

(** [a[ix, iy]]: the cell. *)
Definition np_getitem2 (a : ndarray) (ix iy : nat) : result object :=
  if decide (ix < fst (shape a))%nat then
    if decide (iy < snd (shape a))%nat then Ok PyNone else Raise IndexError
  else Raise IndexError.

(** [nx, ny = a]: unpacking iterates over the rows and wants two of them. *)
Definition np_unpack2 (a : ndarray) : result (value * value) :=
  if decide (fst (shape a) = 2%nat)
  then Ok (NoneArray (snd (shape a)), NoneArray (snd (shape a)))
  else Raise ValueError.

(** The length two one-dimensional arrays broadcast to. *)
Definition broadcast (l1 l2 : nat) : result nat :=
  if decide (l1 = l2) then Ok l1
  else if decide (l1 = 1%nat) then Ok l2
  else if decide (l2 = 1%nat) then Ok l1
  else Raise ValueError.

(** An operator applied cell by cell to an array of [len] cells holding
    [None]: [None] supports no arithmetic and no ordering, so the first cell
    raises; on an empty array nothing is applied. *)
Definition elementwise (len : nat) : result value :=
  if decide (len = 0%nat) then Ok (NoneArray 0) else Raise TypeError.

(** A binary arithmetic operator: [fi] on two ints, [ff] as soon as a float
    is involved, cell by cell as soon as an array is. *)
Definition py_binop (fi : Z -> Z -> result value)
    (ff : float -> float -> result value) (a b : value) : result value :=
  match a, b with
  | Int x, Int y => fi x y
  | Int x, Float y => ff (Qc_of_Z x) y
  | Float x, Int y => ff x (Qc_of_Z y)
  | Float x, Float y => ff x y
  | NoneArray l, Int _ | NoneArray l, Float _
  | Int _, NoneArray l | Float _, NoneArray l => elementwise l
  | NoneArray l1, NoneArray l2 => l ← broadcast l1 l2; elementwise l
  end.

(** [a * b], [a + b], [a - b], [a / b] *)
Definition py_mul : value -> value -> result value :=
  py_binop (fun x y => Ok (Int (x * y))) (fun x y => Ok (Float (x * y)%Qc)).
Definition py_add : value -> value -> result value :=
  py_binop (fun x y => Ok (Int (x + y))) (fun x y => Ok (Float (x + y)%Qc)).
Definition py_sub : value -> value -> result value :=
  py_binop (fun x y => Ok (Int (x - y))) (fun x y => Ok (Float (x - y)%Qc)).
Definition py_truediv : value -> value -> result value :=
  py_binop (fun x y => Float <$> py_div (Qc_of_Z x) (Qc_of_Z y))
           (fun x y => Float <$> py_div x y).

(** [if a > b:], the comparison and its truth value.  On an array the
    comparison is made cell by cell; the truth value of the empty array it
    gives for an empty array is [False] (NumPy before 2.2; later versions
    raise). *)
Definition py_gt (a b : value) : result bool :=
  match a, b with
  | Int x, Int y => Ok (bool_decide (y < x))
  | Int x, Float y => Ok (bool_decide (y < Qc_of_Z x)%Qc)
  | Float x, Int y => Ok (bool_decide (Qc_of_Z y < x)%Qc)
  | Float x, Float y => Ok (bool_decide (y < x)%Qc)
  | NoneArray l, Int _ | NoneArray l, Float _
  | Int _, NoneArray l | Float _, NoneArray l => _ ← elementwise l; Ok false
  | NoneArray l1, NoneArray l2 =>
      l ← broadcast l1 l2; _ ← elementwise l; Ok false
  end.

(** [range(v)]: an array is not an integer, nor is a float. *)
Definition py_range (v : value) : result (list Z) :=
  match v with
  | Int n => Ok (range n)
  | _ => Raise TypeError
  end.

(** [math.ceil(v)] *)
Definition py_ceil (v : value) : result Z :=
  match v with
  | Int n => Ok n
  | Float q => Ok (- ((- Qnum (this q)) / Zpos (Qden (this q))))
  | NoneArray _ => Raise TypeError
  end.

(** [max(a)] on a two-dimensional array: the built-in iterates over the
    rows and compares each with the largest so far. *)
Definition py_max (a : ndarray) : result value :=
  match fst (shape a) with
  | O => Raise ValueError
  | S O => Ok (NoneArray (snd (shape a)))
  | S (S _) =>
      _ ← py_gt (NoneArray (snd (shape a))) (NoneArray (snd (shape a)));
      Ok (NoneArray (snd (shape a)))
  end.

(** ** Tristimulus triplets and frame buffers *)

Definition triplet : Type := float * float * float.

(** A [(ny, nx, 3)] array of floats: [ny] rows of [nx] cells. *)
Abbreviation buffer := (list (list triplet)) (only parsing).

Definition zero3 : triplet := (0%Qc, 0%Qc, 0%Qc).

(** Boolean comparison of a cell with a triplet, for evaluating concrete
    runs. *)
Definition cell_eqb (o : option triplet) (t : triplet) : bool :=
  match o with
  | Some (x, y, z) =>
      float_eqb x (fst (fst t)) && float_eqb y (snd (fst t))
      && float_eqb z (snd t)
  | None => false
  end.

Lemma cell_eqb_eq o t : cell_eqb o t = true -> o = Some t.
Proof.
  destruct o as [[[x y] z]|], t as [[x' y'] z']; simpl; [|done].
  rewrite !andb_true_iff, !float_eqb_eq. by intros [[-> ->] ->].
Qed.

(** [zeros((ny, nx, 3))] for two Python ints that are not negative. *)
Definition zeros (ny nx : nat) : buffer := replicate ny (replicate nx zero3).

(** [zeros((ny, nx, 3))] for two values: a dimension must be an integer,
    and not a negative one. *)
Definition np_zeros (ny nx : value) : result buffer :=
  match ny, nx with
  | Int y, Int x =>
      if decide (y < 0 \/ x < 0) then Raise ValueError
      else Ok (zeros (Z.to_nat y) (Z.to_nat x))
  | _, _ => Raise TypeError
  end.

(** [buf[iy, ix, :]] *)
Definition cell (buf : buffer) (iy ix : nat) : option triplet :=
  row ← buf !! iy; row !! ix.

Definition scale3 (w : float) (t : triplet) : triplet :=
  let '(x, y, z) := t in (w * x, w * y, w * z)%Qc.

Definition add3 (t u : triplet) : triplet :=
  let '(x, y, z) := t in let '(x', y', z') := u in (x + x', y + y', z + z')%Qc.

(** [buf[:, :, :] = w * buf[:, :, :]] *)
Definition scale_buffer (w : float) (buf : buffer) : buffer :=
  (fun row : list triplet => scale3 w <$> row) <$> buf.

(** [buf[iy, ix, :] = f(buf[iy, ix, :])]; an index outside the array raises
    [IndexError]. *)
Definition update_cell (buf : buffer) (iy ix : nat) (f : triplet -> triplet)
  : result buffer :=
  match cell buf iy ix with
  | Some _ => Ok (alter (alter f ix) iy buf)
  | None => Raise IndexError
  end.

(** ** The camera object *)

Section Camera.

(** The scene-graph root type; [isinstance(self.root, World)] holds when
    the root is a [World]. *)
Context {World : Type}.
(** Spectra returned by the pixel sampling methods. *)
Context {Spectrum : Type}.
(** The resampled colour-matching curves of a channel. *)
Context {Curves : Type}.

Record Camera : Type := mkCamera {
  root : option World;
  spectral_rays : Z;
  spectral_samples : Z;
  min_wavelength : binary64;
  max_wavelength : binary64;
  ray_extinction_prob : float;
  ray_min_depth : Z;
  ray_max_depth : Z;
  display_progress : bool;
  display_update_time : float;
  process_count : Z;
  _pixels : ndarray;
  sensitivity : float;
  pixel_samples : Z;
  accumulate : bool;
  accumulated_samples : Z;
  xyz_frame : buffer;
  frame : buffer;
  rays : option Z
}.

(** [Camera.__init__]; [parent_root] is the root that
    [Observer.__init__(parent, transform, name)] leaves in [self.root]. *)
Definition __init__ (pixels : nat * nat) (sensitivity : float)
    (spectral_samples spectral_rays pixel_samples process_count : Z)
    (parent_root : option World) : result Camera :=
  Ok {| root := parent_root;
        spectral_rays := spectral_rays;
        spectral_samples := spectral_samples;
        min_wavelength := float_of_int 375;
        max_wavelength := float_of_int 740;
        ray_extinction_prob := Q2Qc (1 # 10);
        ray_min_depth := 3;
        ray_max_depth := 100;
        display_progress := true;
        display_update_time := Qc_of_Z 10;
        process_count := process_count;
        _pixels := np_empty pixels;
        sensitivity := sensitivity;
        pixel_samples := pixel_samples;
        accumulate := false;
        accumulated_samples := 0;
        xyz_frame := zeros (snd pixels) (fst pixels);
        frame := zeros (snd pixels) (fst pixels);
        rays := None |}.

(** The parameters of [Camera.__init__], and a call of it by keyword: a
    keyword that names no parameter raises [TypeError] before the body
    runs. *)
Definition Camera_init_parameters : list string :=
  ["pixels"; "sensitivity"; "spectral_samples"; "spectral_rays";
   "pixel_samples"; "process_count"; "parent"; "transform"; "name"].

Definition bind_keywords (parameters keywords : list string) : result unit :=
  if decide (Forall (fun k => k ∈ parameters) keywords) then Ok tt
  else Raise TypeError.

(** A wavelength channel [(min_wavelength, max_wavelength, spectral_samples)]. *)
Definition channel : Type := binary64 * binary64 * Z.

(** [Camera._calc_wvl_channel_config] *)
Definition _calc_wvl_channel_config (self : Camera) : result (list channel) :=
  delta_wavelength ←
    float_div_int (PrimFloat.sub (max_wavelength self) (min_wavelength self))
                  (spectral_rays self);
  Ok ((fun index =>
         (PrimFloat.add (min_wavelength self)
            (PrimFloat.mul delta_wavelength (float_of_int index)),
          PrimFloat.add (min_wavelength self)
            (PrimFloat.mul delta_wavelength (float_of_int (index + 1))),
          spectral_samples self)) <$> range (spectral_rays self)).

(** Attribute assignments. *)
Definition set_xyz_frame (buf : buffer) (self : Camera) : Camera :=
  mkCamera (root self) (spectral_rays self) (spectral_samples self)
    (min_wavelength self) (max_wavelength self) (ray_extinction_prob self)
    (ray_min_depth self) (ray_max_depth self) (display_progress self)
    (display_update_time self) (process_count self) (_pixels self)
    (sensitivity self) (pixel_samples self) (accumulate self)
    (accumulated_samples self) buf (frame self) (rays self).

Definition set_frame (buf : buffer) (self : Camera) : Camera :=
  mkCamera (root self) (spectral_rays self) (spectral_samples self)
    (min_wavelength self) (max_wavelength self) (ray_extinction_prob self)
    (ray_min_depth self) (ray_max_depth self) (display_progress self)
    (display_update_time self) (process_count self) (_pixels self)
    (sensitivity self) (pixel_samples self) (accumulate self)
    (accumulated_samples self) (xyz_frame self) buf (rays self).

Definition set_accumulated_samples (n : Z) (self : Camera) : Camera :=
  mkCamera (root self) (spectral_rays self) (spectral_samples self)
    (min_wavelength self) (max_wavelength self) (ray_extinction_prob self)
    (ray_min_depth self) (ray_max_depth self) (display_progress self)
    (display_update_time self) (process_count self) (_pixels self)
    (sensitivity self) (pixel_samples self) (accumulate self)
    n (xyz_frame self) (frame self) (rays self).

(** The assignments a caller makes between passes:
    [camera.accumulate], [camera.pixel_samples], [camera.spectral_rays],
    [camera.process_count], [camera.min_wavelength],
    [camera.max_wavelength], [camera.rays]. *)
Definition set_accumulate (b : bool) (self : Camera) : Camera :=
  mkCamera (root self) (spectral_rays self) (spectral_samples self)
    (min_wavelength self) (max_wavelength self) (ray_extinction_prob self)
    (ray_min_depth self) (ray_max_depth self) (display_progress self)
    (display_update_time self) (process_count self) (_pixels self)
    (sensitivity self) (pixel_samples self) b
    (accumulated_samples self) (xyz_frame self) (frame self) (rays self).

Definition set_sampling (pixel_samples spectral_rays : Z) (self : Camera)
  : Camera :=
  mkCamera (root self) spectral_rays (spectral_samples self)
    (min_wavelength self) (max_wavelength self) (ray_extinction_prob self)
    (ray_min_depth self) (ray_max_depth self) (display_progress self)
    (display_update_time self) (process_count self) (_pixels self)
    (sensitivity self) pixel_samples (accumulate self)
    (accumulated_samples self) (xyz_frame self) (frame self) (rays self).

Definition set_process_count (n : Z) (self : Camera) : Camera :=
  mkCamera (root self) (spectral_rays self) (spectral_samples self)
    (min_wavelength self) (max_wavelength self) (ray_extinction_prob self)
    (ray_min_depth self) (ray_max_depth self) (display_progress self)
    (display_update_time self) n (_pixels self)
    (sensitivity self) (pixel_samples self) (accumulate self)
    (accumulated_samples self) (xyz_frame self) (frame self) (rays self).

Definition set_wavelengths (lo hi : binary64) (self : Camera) : Camera :=
  mkCamera (root self) (spectral_rays self) (spectral_samples self)
    lo hi (ray_extinction_prob self)
    (ray_min_depth self) (ray_max_depth self) (display_progress self)
    (display_update_time self) (process_count self) (_pixels self)
    (sensitivity self) (pixel_samples self) (accumulate self)
    (accumulated_samples self) (xyz_frame self) (frame self) (rays self).

Definition set_rays (r : option Z) (self : Camera) : Camera :=
  mkCamera (root self) (spectral_rays self) (spectral_samples self)
    (min_wavelength self) (max_wavelength self) (ray_extinction_prob self)
    (ray_min_depth self) (ray_max_depth self) (display_progress self)
    (display_update_time self) (process_count self) (_pixels self)
    (sensitivity self) (pixel_samples self) (accumulate self)
    (accumulated_samples self) (xyz_frame self) (frame self) r.

(** *** Collaborators *)

(** [resample_ciexyz(min_wavelength, max_wavelength, spectral_samples)] *)
Variable resample_ciexyz : binary64 -> binary64 -> Z -> Curves.
(** [spectrum_to_ciexyz(spectrum, resampled_xyz)] *)
Variable spectrum_to_ciexyz : Spectrum -> Curves -> triplet.
(** [ciexyz_to_srgb( *xyz )] *)
Variable ciexyz_to_srgb : triplet -> triplet.
(** [self._sample_pixel(x, y, min_wavelength, max_wavelength,
    spectral_samples, world)], the method the workers call; the file does
    not define it. *)
Variable _sample_pixel :
  nat -> nat -> binary64 -> binary64 -> Z -> option World -> Spectrum * Z.
(** [self._rebuild_pixels()] as overridden by the camera's class; the
    override is taken to leave the attributes modelled here as they are. *)
Variable _rebuild_pixels : Camera -> result unit.

(** [Camera._rebuild_pixels], the virtual method of the base class. *)
Definition Camera_rebuild_pixels (self : Camera) : result unit :=
  Raise NotImplementedError.

(** [pixel.sample_pixel], the attribute lookup on the object a cell of
    [self.pixels] holds: [None] has no such method. *)
Definition sample_pixel_of (pixel : object)
  : result (binary64 -> binary64 -> Z -> Camera -> Spectrum * Z) :=
  match pixel with
  | PyNone => Raise AttributeError
  end.

(** [self.rays] *)
Definition get_rays (self : Camera) : result Z :=
  match rays self with
  | None => Raise AttributeError
  | Some r => Ok r
  end.

(** *** Statistics *)

(** [(total_work, total_pixels, ray_count)]; the two timers are left out. *)
Definition statistics : Type := value * value * Z.

(** The wall clock: whether [(time() - progress_timer) > 1.0] holds when
    [_update_statistics] is called by the camera [self] for result [pixel]
    of channel [index]. *)
Variable progress_due : Camera -> nat -> value -> bool.

(** [Camera._start_statistics] *)
Definition _start_statistics (self : Camera) : result statistics :=
  row0 ← np_getitem (_pixels self) 0;
  row1 ← np_getitem (_pixels self) 1;
  total_pixels ← py_mul row0 row1;
  r ← get_rays self;
  total_work ← py_mul total_pixels (Int r);
  Ok (total_work, total_pixels, 0).

(** [Camera._update_statistics]: the rolling ray counter and, once a
    second, the progress line.  Of the line the arguments of [format] are
    kept, in the order they are evaluated, up to the first that cannot be
    computed: [math.ceil] is given an array or nothing. *)
Definition _update_statistics (self : Camera) (statistics_data : statistics)
    (index : nat) (pixel : value) (sample_ray_count : Z) : result statistics :=
  let '(total_work, total_pixels, ray_count) := statistics_data in
  let ray_count := ray_count + sample_ray_count in
  if progress_due self index pixel then
    work ← py_mul total_pixels (Int (Z.of_nat index));
    current_work ← py_add work pixel;
    percent ← py_mul (Int 100) current_work;
    completion ← py_truediv percent total_work;
    channels ← get_rays self;
    next ← py_add pixel (Int 1);
    row0 ← np_getitem (_pixels self) 0;
    quotient ← py_truediv next row0;
    line ← py_ceil quotient;
    lines ← np_getitem (_pixels self) 1;
    Ok (total_work, total_pixels, 0)
  else Ok (total_work, total_pixels, ray_count).

(** *** Accumulation *)

(** One invocation of a pixel sampling method, as a recording stub would
    log it: channel index, pixel coordinates, and the tristimulus value
    obtained from the returned spectrum. *)
Record call : Type := mkCall {
  call_channel : nat;
  call_x : nat;
  call_y : nat;
  call_xyz : triplet
}.

(** The statements
    [xyz_frame[y, x, 0] += added_weight * xyz[0]] (and [1], [2]) and
    [self.frame[y, x, :] = ciexyz_to_srgb( *xyz_frame[y, x, :])];
    [xyz_frame] is the array object held in [self.xyz_frame]. *)
Definition accumulate_pixel (added_weight : float) (x y : nat) (xyz : triplet)
    (self : Camera) : Camera * result unit :=
  match update_cell (xyz_frame self) y x
          (fun t => add3 t (scale3 added_weight xyz)) with
  | Raise e => (self, Raise e)
  | Ok buf =>
      let self := set_xyz_frame buf self in
      match cell buf y x with
      | None => (self, Raise IndexError)
      | Some t =>
          match update_cell (frame self) y x (fun _ => ciexyz_to_srgb t) with
          | Raise e => (self, Raise e)
          | Ok fr => (set_frame fr self, Ok tt)
          end
      end
  end.

(** [enumerate(l)] *)
Definition enumerate {A : Type} (l : list A) : list (nat * A) := imap pair l.

(** *** The sequential engine *)

(** The coordinator's view while an engine runs: the camera, the statistics
    tuple, and the log of sampling calls made so far. *)
Record run : Type := mkRun {
  cam : Camera;
  stats : statistics;
  calls : list call
}.

(** The body of the pixel loops of [_observe_single]. *)
Definition single_pixel (added_weight : float) (i_channel : nat)
    (wvl_channel_config : channel) (resampled_xyz : Curves) (iy ix : nat)
    (st : run) : run * result unit :=
  let '(min_wavelength, max_wavelength, spectral_samples) := wvl_channel_config in
  match pixel ← np_getitem2 (_pixels (cam st)) ix iy; sample_pixel_of pixel with
  | Raise e => (st, Raise e)
  | Ok sample_pixel =>
      let '(spectrum, ray_count) :=
        sample_pixel min_wavelength max_wavelength spectral_samples (cam st) in
      let xyz := spectrum_to_ciexyz spectrum resampled_xyz in
      let log := calls st ++ [mkCall i_channel ix iy xyz] in
      match accumulate_pixel added_weight ix iy xyz (cam st) with
      | (self, Raise e) => (mkRun self (stats st) log, Raise e)
      | (self, Ok _) =>
          match row0 ← np_getitem (_pixels self) 0;
                offset ← py_mul row0 (Int (Z.of_nat iy));
                pixel ← py_add (Int (Z.of_nat ix)) offset;
                _update_statistics self (stats st) i_channel pixel ray_count
          with
          | Raise e => (mkRun self (stats st) log, Raise e)
          | Ok statistics_data => (mkRun self statistics_data log, Ok tt)
          end
      end
  end.

(** The body of the channel loop of [_observe_single]. *)
Definition single_channel (added_weight : float)
    (entry : nat * channel) (st : run) : run * result unit :=
  let '(i_channel, wvl_channel_config) := entry in
  let '(min_wavelength, max_wavelength, spectral_samples) := wvl_channel_config in
  let resampled_xyz := resample_ciexyz min_wavelength max_wavelength spectral_samples in
  let '(nx, ny) := shape (_pixels (cam st)) in
  for_each (fun iy =>
              for_each (single_pixel added_weight i_channel wvl_channel_config
                          resampled_xyz iy) (seq 0 nx))
           (seq 0 ny) st.

(** *** The worker-pool engine

    One coordinator (the caller of [_observe_parallel]), and per channel one
    producer process and [process_count] worker processes, connected by two
    queues.  The processes are interleaved by a schedule; a scheduled
    process that cannot move (a [get] on an empty queue, a process that has
    exited) leaves the state unchanged. *)

(** Where a worker stands in the loop of [_worker]. *)
Inductive wstate : Type :=
| WaitTask                     (* at [task_queue.get()] *)
| HasPixel (x y : nat)         (* got a pixel, about to sample it and send *)
| Exited.                      (* left the loop on [None] *)

Record worker : Type := mkWorker {
  w_state : wstate;
  w_sentinels : nat            (* how many [None] tasks it has received *)
}.

(** The processes and queues started for one channel. *)
Record pool : Type := mkPool {
  pool_channel : channel;
  pool_curves : Curves;
  pool_world : option World;
  task_queue : list (option (nat * nat));
  result_queue : list (nat * nat * triplet * Z);
  producer_todo : list (nat * nat);
  workers : list worker;
  pool_calls : list call
}.

(** [Camera._producer]: the tasks it puts, in order.  A raise ends the
    producer process before its first [put]. *)
Definition _producer (self : Camera) : result (list (nat * nat)) :=
  '(nx, ny) ← np_unpack2 (_pixels self);
  rows ← py_range ny;
  collect (fun y =>
             columns ← py_range nx;
             Ok ((fun x : Z => (Z.to_nat x, Z.to_nat y)) <$> (columns : list Z)))
          rows.

(** The producer puts its next task. *)
Definition producer_step (p : pool) : pool :=
  match producer_todo p with
  | [] => p
  | t :: rest =>
      mkPool (pool_channel p) (pool_curves p) (pool_world p)
        (task_queue p ++ [Some t]) (result_queue p) rest (workers p)
        (pool_calls p)
  end.

(** [Camera._worker], [pixel = task_queue.get()] and the test for [None]. *)
Definition worker_get (i : nat) (p : pool) : pool :=
  match workers p !! i, task_queue p with
  | Some (mkWorker WaitTask n), t :: q =>
      let w := match t with
               | None => mkWorker Exited (S n)
               | Some (x, y) => mkWorker (HasPixel x y) n
               end in
      mkPool (pool_channel p) (pool_curves p) (pool_world p)
        q (result_queue p) (producer_todo p) (<[i := w]> (workers p))
        (pool_calls p)
  | _, _ => p
  end.

(** [Camera._worker], from [x, y = pixel] to [result_queue.put(result)];
    [chan] is the channel index the pool serves. *)
Definition worker_put (chan i : nat) (p : pool) : pool :=
  match workers p !! i with
  | Some (mkWorker (HasPixel x y) n) =>
      let '(min_wavelength, max_wavelength, spectral_samples) := pool_channel p in
      let '(spectrum, ray_count) :=
        _sample_pixel x y min_wavelength max_wavelength spectral_samples
          (pool_world p) in
      let xyz := spectrum_to_ciexyz spectrum (pool_curves p) in
      mkPool (pool_channel p) (pool_curves p) (pool_world p)
        (task_queue p) (result_queue p ++ [(x, y, xyz, ray_count)])
        (producer_todo p) (<[i := mkWorker WaitTask n]> (workers p))
        (pool_calls p ++ [mkCall chan x y xyz])
  | _ => p
  end.

(** Where the coordinator stands in [_observe_parallel]. *)
Inductive coordinator : Type :=
| NextChannel (rest : list (nat * channel))
    (* at the head of the channel loop *)
| Collecting (chan : nat) (pixels : list Z) (rest : list (nat * channel))
    (* in the result loop of channel [chan], [pixels] still to come *)
| ShuttingDown (chan sent : nat) (rest : list (nat * channel))
    (* in the sentinel loop, [sent] sentinels put *)
| Returned
| Failed (e : exn).

Record par_state : Type := mkPar {
  p_cam : Camera;
  p_stats : statistics;
  p_added_weight : float;
  p_total_pixels : value;
  p_coord : coordinator;
  p_pools : list pool
}.

Definition set_coord (c : coordinator) (st : par_state) : par_state :=
  mkPar (p_cam st) (p_stats st) (p_added_weight st) (p_total_pixels st) c
    (p_pools st).

Definition set_pools (ps : list pool) (st : par_state) : par_state :=
  mkPar (p_cam st) (p_stats st) (p_added_weight st) (p_total_pixels st)
    (p_coord st) ps.

(** [result_queue.get()] returned [r]: the queue without it. *)
Definition pop_result (p : pool) : pool :=
  mkPool (pool_channel p) (pool_curves p) (pool_world p) (task_queue p)
    (tail (result_queue p)) (producer_todo p) (workers p) (pool_calls p).

(** [task_queue.put(None)] *)
Definition put_sentinel (p : pool) : pool :=
  mkPool (pool_channel p) (pool_curves p) (pool_world p)
    (task_queue p ++ [None]) (result_queue p) (producer_todo p) (workers p)
    (pool_calls p).

(** The processes [_observe_parallel] starts for a channel: two empty
    queues, the producer, and [process_count] workers. *)
Definition start_pool (self : Camera) (wvl_channel_config : channel)
    (resampled_xyz : Curves) : pool :=
  mkPool wvl_channel_config resampled_xyz (root self) [] []
    (match _producer self with
     | Ok tasks => tasks
     | Raise _ => []
     end)
    (replicate (Z.to_nat (process_count self)) (mkWorker WaitTask 0%nat))
    [].

(** The next statement of the coordinator.  The pool of channel [chan] is
    the [chan]-th started.  Creating the two queues, starting the producer
    and the workers and evaluating [range(total_pixels)] is one step; a
    [result_queue.get()] on an empty queue blocks (no step). *)
Definition coordinator_step (st : par_state) : par_state :=
  match p_coord st with
  | NextChannel [] => set_coord Returned st
  | NextChannel ((chan, wvl_channel_config) :: rest) =>
      let '(min_wavelength, max_wavelength, spectral_samples) := wvl_channel_config in
      let resampled_xyz :=
        resample_ciexyz min_wavelength max_wavelength spectral_samples in
      let st :=
        set_pools
          (p_pools st ++ [start_pool (p_cam st) wvl_channel_config resampled_xyz])
          st in
      match py_range (p_total_pixels st) with
      | Raise e => set_coord (Failed e) st
      | Ok pixels => set_coord (Collecting chan pixels rest) st
      end
  | Collecting chan [] rest => set_coord (ShuttingDown chan 0 rest) st
  | Collecting chan (pixel :: pixels) rest =>
      match p_pools st !! chan with
      | Some p =>
          match result_queue p with
          | [] => st
          | (x, y, xyz, sample_ray_count) :: _ =>
              let pools := <[chan := pop_result p]> (p_pools st) in
              match accumulate_pixel (p_added_weight st) x y xyz (p_cam st) with
              | (self, Raise e) =>
                  mkPar self (p_stats st) (p_added_weight st)
                    (p_total_pixels st) (Failed e) pools
              | (self, Ok _) =>
                  match _update_statistics self (p_stats st) chan
                          (Int pixel) sample_ray_count with
                  | Raise e =>
                      mkPar self (p_stats st) (p_added_weight st)
                        (p_total_pixels st) (Failed e) pools
                  | Ok statistics_data =>
                      mkPar self statistics_data (p_added_weight st)
                        (p_total_pixels st)
                        (Collecting chan pixels rest) pools
                  end
              end
          end
      | None => st
      end
  | ShuttingDown chan sent rest =>
      match p_pools st !! chan with
      | Some p =>
          if decide (sent < length (workers p))%nat then
            set_coord (ShuttingDown chan (S sent) rest)
              (set_pools (<[chan := put_sentinel p]> (p_pools st)) st)
          else set_coord (NextChannel rest) st
      | None => st
      end
  | Returned => st
  | Failed _ => st
  end.

(** The process the scheduler runs next. *)
Inductive label : Type :=
| Coordinator
| Producer (chan : nat)
| WorkerGet (chan i : nat)
| WorkerPut (chan i : nat).

Definition par_step (l : label) (st : par_state) : par_state :=
  match l with
  | Coordinator => coordinator_step st
  | Producer chan => set_pools (alter producer_step chan (p_pools st)) st
  | WorkerGet chan i => set_pools (alter (worker_get i) chan (p_pools st)) st
  | WorkerPut chan i => set_pools (alter (worker_put chan i) chan (p_pools st)) st
  end.

Definition par_run (sched : list label) (st : par_state) : par_state :=
  foldl (fun st l => par_step l st) st sched.

(** *** Outcomes *)

(** What a call leaves behind: the camera, the sampling calls logged by the
    sequential engine, the pools started by the worker-pool engine, and how
    the call ended. *)
Record outcome : Type := mkOutcome {
  out_cam : Camera;
  out_calls : list call;
  out_pools : list pool;
  out_status : status
}.

(** [Camera._observe_single]; [xyz_frame] is [self.xyz_frame]. *)
Definition _observe_single (self : Camera) (wvl_channels : list channel)
  : outcome :=
  match _start_statistics self with
  | Raise e => mkOutcome self [] [] (Raised e)
  | Ok statistics_data =>
      let total_samples :=
        accumulated_samples self + pixel_samples self * spectral_rays self in
      match py_div (Qc_of_Z (accumulated_samples self)) (Qc_of_Z total_samples) with
      | Raise e => mkOutcome self [] [] (Raised e)
      | Ok previous_weight =>
          match py_div (Qc_of_Z (spectral_rays self * pixel_samples self))
                  (Qc_of_Z total_samples) with
          | Raise e => mkOutcome self [] [] (Raised e)
          | Ok added_weight =>
              let self :=
                set_xyz_frame (scale_buffer previous_weight (xyz_frame self)) self in
              match for_each (single_channel added_weight)
                      (enumerate wvl_channels)
                      (mkRun self statistics_data []) with
              | (st, Raise e) => mkOutcome (cam st) (calls st) [] (Raised e)
              | (st, Ok _) => mkOutcome (cam st) (calls st) [] Done
              end
          end
      end
  end.

(** [Camera._observe_parallel], up to the channel loop. *)
Definition _observe_parallel_start (self : Camera) (wvl_channels : list channel)
  : Camera * result par_state :=
  match _start_statistics self with
  | Raise e => (self, Raise e)
  | Ok statistics_data =>
      match row0 ← np_getitem (_pixels self) 0;
            row1 ← np_getitem (_pixels self) 1;
            total_pixels ← py_mul row0 row1;
            r ← get_rays self;
            Ok (total_pixels, r) with
      | Raise e => (self, Raise e)
      | Ok (total_pixels, r) =>
          let total_samples := accumulated_samples self + pixel_samples self * r in
          match py_div (Qc_of_Z (accumulated_samples self)) (Qc_of_Z total_samples) with
          | Raise e => (self, Raise e)
          | Ok previous_weight =>
              match py_div (Qc_of_Z (r * pixel_samples self))
                      (Qc_of_Z total_samples) with
              | Raise e => (self, Raise e)
              | Ok added_weight =>
                  let self :=
                    set_xyz_frame
                      (scale_buffer previous_weight (xyz_frame self)) self in
                  (self,
                   Ok (mkPar self statistics_data added_weight total_pixels
                         (NextChannel (enumerate wvl_channels)) []))
              end
          end
      end
  end.

(** How a coordinator in state [c] has ended. *)
Definition status_of (c : coordinator) : status :=
  match c with
  | Returned => Done
  | Failed e => Raised e
  | _ => Pending
  end.

(** [Camera._observe_parallel] under the schedule [sched].  Until it has
    started the first pool the coordinator is the only process there is: it
    takes its first step, then the schedule decides. *)
Definition _observe_parallel (sched : list label) (self : Camera)
    (wvl_channels : list channel) : outcome :=
  match _observe_parallel_start self wvl_channels with
  | (self, Raise e) => mkOutcome self [] [] (Raised e)
  | (_, Ok st0) =>
      let st := par_run sched (coordinator_step st0) in
      mkOutcome (p_cam st) [] (p_pools st) (status_of (p_coord st))
  end.

(** The first statements of [Camera.observe] after the connection check,
    when [self.accumulate] is false: the two buffers are replaced, then the
    counter is cleared. *)
Definition reset_frames (self : Camera) : Camera * result unit :=
  match row1 ← np_getitem (_pixels self) 1;
        row0 ← np_getitem (_pixels self) 0;
        np_zeros row1 row0 with
  | Raise e => (self, Raise e)
  | Ok buf =>
      let self := set_xyz_frame buf self in
      match row1 ← np_getitem (_pixels self) 1;
            row0 ← np_getitem (_pixels self) 0;
            np_zeros row1 row0 with
      | Raise e => (self, Raise e)
      | Ok buf => (set_accumulated_samples 0 (set_frame buf self), Ok tt)
      end
  end.

(** [Camera.observe] *)
Definition observe (sched : list label) (self : Camera) : outcome :=
  match root self with
  | None => mkOutcome self [] [] (Raised TypeError)
  | Some _ =>
      match (if accumulate self then (self, Ok tt) else reset_frames self) with
      | (self, Raise e) => mkOutcome self [] [] (Raised e)
      | (self, Ok _) =>
          match _calc_wvl_channel_config self with
          | Raise e => mkOutcome self [] [] (Raised e)
          | Ok wvl_channels =>
              match _rebuild_pixels self with
              | Raise e => mkOutcome self [] [] (Raised e)
              | Ok _ =>
                  let out :=
                    if decide (process_count self = 1)
                    then _observe_single self wvl_channels
                    else _observe_parallel sched self wvl_channels in
                  match out_status out with
                  | Done =>
                      let self := out_cam out in
                      mkOutcome
                        (set_accumulated_samples
                           (accumulated_samples self
                            + pixel_samples self * spectral_rays self) self)
                        (out_calls out) (out_pools out) Done
                  | _ => out
                  end
              end
          end
      end
  end.

(** *** The pinhole camera *)

(** [math.tan] and [math.pi]. *)
Variable tan : float -> float.
Variable pi : float.
(** Points and affine transforms of the scene graph: [Point3D(x, y, z)],
    [point.transform(m)] and [self.to_root()]. *)
Context {Point3D : Type}.
Context {AffineMatrix3D : Type}.
Variable Point3D_new : float -> float -> float -> Point3D.
Variable transform : Point3D -> AffineMatrix3D -> Point3D.
Variable to_root : Camera -> AffineMatrix3D.

Record PinholeCamera : Type := mkPinholeCamera {
  base : Camera;
  _fov : float;
  sub_sample : bool
}.

(** [PinholeCamera.__init__]: it calls [Camera.__init__] by keyword, with
    [rays=rays] among the keywords, then assigns [_fov] and [sub_sample]. *)
Definition PinholeCamera__init__ (pixels : nat * nat) (fov sensitivity : float)
    (spectral_samples rays pixel_samples : Z) (sub_sample : bool)
    (process_count : Z) (parent_root : option World) : result PinholeCamera :=
  _ ← bind_keywords Camera_init_parameters
        ["pixels"; "sensitivity"; "spectral_samples"; "rays"; "pixel_samples";
         "process_count"; "parent"; "transform"; "name"];
  self ← __init__ pixels sensitivity spectral_samples 1 pixel_samples
           process_count parent_root;
  Ok (mkPinholeCamera self fov sub_sample).

(** [PinholeCamera._setup_pixel_config] *)
Definition _setup_pixel_config (self : PinholeCamera)
  : result (Point3D * value * value * value) :=
  max_pixels ← py_max (_pixels (base self));
  several ← py_gt max_pixels (Int 1);
  '(image_delta, image_start_x, image_start_y) ←
    (if several : bool then
       let image_max_width :=
         (2 * tan (pi / Qc_of_Z 180 * Q2Qc (1 # 2) * _fov self))%Qc in
       steps ← py_sub max_pixels (Int 1);
       image_delta ← py_truediv (Float image_max_width) steps;
       row0 ← np_getitem (_pixels (base self)) 0;
       half_x ← py_mul (Float (Q2Qc (1 # 2))) row0;
       image_start_x ← py_mul half_x image_delta;
       row1 ← np_getitem (_pixels (base self)) 1;
       half_y ← py_mul (Float (Q2Qc (1 # 2))) row1;
       image_start_y ← py_mul half_y image_delta;
       Ok (image_delta, image_start_x, image_start_y)
     else Ok (Int 0, Int 0, Int 0));
  let origin := transform (Point3D_new 0%Qc 0%Qc 0%Qc) (to_root (base self)) in
  Ok (origin, image_delta, image_start_x, image_start_y).

(** ** Vocabulary of the statements *)

(** The array [buf] has shape [(ny, nx, 3)]. *)
Definition has_shape (buf : buffer) (ny nx : nat) : Prop :=
  length buf = ny /\ Forall (fun row : list triplet => length row = nx) buf.

(** Both frame buffers of [self] have the shape of its image. *)
Definition well_shaped (self : Camera) : Prop :=
  has_shape (xyz_frame self) (snd (shape (_pixels self)))
    (fst (shape (_pixels self))) /\
  has_shape (frame self) (snd (shape (_pixels self)))
    (fst (shape (_pixels self))).

(** The image of [self] has at least one pixel. *)
Definition has_pixels (self : Camera) : Prop :=
  (0 < fst (shape (_pixels self)))%nat /\ (0 < snd (shape (_pixels self)))%nat.

(** The assignments that give a camera a prior state: frame buffers and
    sample counter. *)
Definition with_prior_state (xyz fr : buffer) (n : Z) (self : Camera) : Camera :=
  set_accumulated_samples n (set_frame fr (set_xyz_frame xyz self)).

(** The exception the first read of [self._pixels[1]] and
    [self._pixels[0]] as image dimensions ends in: there is no row 1, or a
    row is not an integer. *)
Definition dimension_error (self : Camera) : exn :=
  if decide (fst (shape (_pixels self)) < 2)%nat then IndexError else TypeError.

(** A client running progressive passes: before each pass it assigns
    [pixel_samples] and [spectral_rays], then calls [observe()], whatever
    the previous call did.  The result is the camera after the last call
    and how each call ended. *)
Fixpoint observe_passes (sched : list label) (passes : list (Z * Z))
    (self : Camera) : Camera * list status :=
  match passes with
  | [] => (self, [])
  | (pixel_samples, spectral_rays) :: rest =>
      let out := observe sched (set_sampling pixel_samples spectral_rays self) in
      let '(self', statuses) := observe_passes sched rest (out_cam out) in
      (self', out_status out :: statuses)
  end.

(** Every sampling call a pass made, by either engine. *)
Definition all_calls (out : outcome) : list call :=
  out_calls out ++ concat (pool_calls <$> out_pools out).

(** The sentinels on a pool's task queue and those its workers have
    received: the sentinels the coordinator has put so far. *)
Definition queued_sentinels (p : pool) : nat :=
  length (filter (fun t => t = None) (task_queue p)).

Definition received_sentinels (p : pool) : nat :=
  sum_list (w_sentinels <$> workers p).

Definition sentinels_put (p : pool) : nat :=
  (queued_sentinels p + received_sentinels p)%nat.

(** A pool as [_observe_parallel] has started it, in which nothing has
    happened and nothing can: no task was put, every worker waits at its
    first [get]. *)
Definition idle (p : pool) : Prop :=
  task_queue p = [] /\ result_queue p = [] /\ producer_todo p = [] /\
  pool_calls p = [] /\
  Forall (fun w => w = mkWorker WaitTask 0%nat) (workers p).

(** The bound [min_wavelength + delta_wavelength * i] of the channel
    planner, each operation rounded to binary64. *)
Definition delta_wavelength (self : Camera) : binary64 :=
  PrimFloat.div (PrimFloat.sub (max_wavelength self) (min_wavelength self))
    (float_of_int (spectral_rays self)).




(** ** Reading [self._pixels] as image dimensions *)

Lemma np_getitem_0 a :
  np_getitem a 0 =
  if decide (0 < fst (shape a))%nat then Ok (NoneArray (snd (shape a)))
  else Raise IndexError.
Proof. reflexivity. Qed.

(** The product [self._pixels[0] * self._pixels[1]]. *)
Lemma total_pixels_cases (self : Camera) :
  (row0 ← np_getitem (_pixels self) 0;
   row1 ← np_getitem (_pixels self) 1;
   py_mul row0 row1)
  = if decide (fst (shape (_pixels self)) < 2)%nat then Raise IndexError
    else if decide (snd (shape (_pixels self)) = 0)%nat then Ok (NoneArray 0)
    else Raise TypeError.
Proof.
  unfold np_getitem.
  destruct (decide (fst (shape (_pixels self)) < 2)%nat) as [Hlt|Hge].
  - destruct (decide (0 < _)%nat); simpl; [|done].
    destruct (decide (1 < _)%nat); [lia|done].
  - destruct (decide (0 < _)%nat); [|lia]. simpl.
    destruct (decide (1 < _)%nat); [|lia]. simpl.
    unfold broadcast. rewrite decide_True by done. simpl.
    unfold elementwise. by destruct (decide _).
Qed.

Lemma start_statistics_cases (self : Camera) :
  _start_statistics self
  = if decide (fst (shape (_pixels self)) < 2)%nat then Raise IndexError
    else if decide (snd (shape (_pixels self)) = 0)%nat then
      match rays self with
      | None => Raise AttributeError
      | Some r => Ok (NoneArray 0, NoneArray 0, 0)
      end
    else Raise TypeError.
Proof.
  unfold _start_statistics, np_getitem.
  destruct (decide (fst (shape (_pixels self)) < 2)%nat) as [Hlt|Hge].
  - destruct (decide (0 < _)%nat); simpl; [|done].
    destruct (decide (1 < _)%nat); [lia|done].
  - destruct (decide (0 < _)%nat); [|lia]. simpl.
    destruct (decide (1 < _)%nat); [|lia]. simpl.
    unfold broadcast. rewrite decide_True by done. simpl.
    unfold elementwise. destruct (decide _); [|done]. simpl.
    unfold get_rays. by destruct (rays self).
Qed.

Lemma start_statistics_raises (self : Camera) :
  has_pixels self ->
  _start_statistics self = Raise (dimension_error self).
Proof.
  intros [Hx Hy]. rewrite start_statistics_cases. unfold dimension_error.
  destruct (decide (_ < 2)%nat); [done|]. by rewrite decide_False by lia.
Qed.

(** The reset of [observe] never gets as far as its first assignment. *)
Lemma reset_frames_raises (self : Camera) :
  reset_frames self = (self, Raise (dimension_error self)).
Proof.
  unfold reset_frames, dimension_error, np_getitem.
  destruct (decide (fst (shape (_pixels self)) < 2)%nat) as [Hlt|Hge].
  - destruct (decide (1 < _)%nat); [lia|done].
  - destruct (decide (1 < _)%nat); [|lia]. simpl.
    destruct (decide (0 < _)%nat); [done|lia].
Qed.

(** ** The processes of the worker-pool engine *)

(** The producer ends on its second statement at the latest. *)
Lemma producer_raises (self : Camera) :
  _producer self
  = Raise (if decide (fst (shape (_pixels self)) = 2%nat) then TypeError
           else ValueError).
Proof. unfold _producer, np_unpack2. by destruct (decide _). Qed.

Lemma start_pool_idle (self : Camera) cfg curves :
  idle (start_pool self cfg curves).
Proof.
  unfold idle, start_pool. cbn [task_queue result_queue producer_todo
    pool_calls workers]. rewrite producer_raises.
  repeat split; try done. by apply Forall_replicate.
Qed.

Lemma alter_stationary {A : Type} (f : A -> A) i (l : list A) :
  Forall (fun x => f x = x) l -> alter f i l = l.
Proof.
  intros H. revert i. induction H as [|x l Hx _ IH]; intros [|i];
    [done|done| |].
  - cbn. by rewrite Hx.
  - cbn. f_equal. apply IH.
Qed.

Lemma idle_producer_step p : idle p -> producer_step p = p.
Proof. intros (_ & _ & Htodo & _). unfold producer_step. by rewrite Htodo. Qed.

Lemma idle_worker_get i p : idle p -> worker_get i p = p.
Proof.
  intros (Hq & _). unfold worker_get. rewrite Hq.
  by destruct (workers p !! i) as [[[] ?]|].
Qed.

Lemma idle_worker_put chan i p : idle p -> worker_put chan i p = p.
Proof.
  intros (_ & _ & _ & _ & Hw). unfold worker_put.
  destruct (workers p !! i) as [w|] eqn:Hi; [|done].
  rewrite Forall_lookup in Hw. by rewrite (Hw _ _ Hi).
Qed.

Lemma idle_no_sentinel p : idle p -> sentinels_put p = 0%nat.
Proof.
  intros (Hq & _ & _ & _ & Hw).
  unfold sentinels_put, queued_sentinels, received_sentinels.
  rewrite Hq. simpl. induction Hw as [|w ws -> _ IH]; [done|]. simpl. exact IH.
Qed.

(** A state in which the coordinator has ended and every pool is idle
    stays as it is, whoever is scheduled. *)
Lemma par_run_settled sched st :
  status_of (p_coord st) <> Pending ->
  Forall idle (p_pools st) ->
  par_run sched st = st.
Proof.
  intros Hc Hp. induction sched as [|l sched IH]; [done|].
  unfold par_run. simpl. fold (par_run sched).
  assert (Hl : par_step l st = st); [|by rewrite Hl].
  destruct st as [c s aw tp co ps]. simpl in Hc, Hp.
  destruct l as [|chan|chan i|chan i]; unfold par_step, set_pools; simpl.
  - unfold coordinator_step. simpl. by destruct co.
  - rewrite alter_stationary; [done|].
    eapply Forall_impl; [exact Hp|]. apply idle_producer_step.
  - rewrite alter_stationary; [done|].
    eapply Forall_impl; [exact Hp|]. apply idle_worker_get.
  - rewrite alter_stationary; [done|].
    eapply Forall_impl; [exact Hp|]. apply idle_worker_put.
Qed.

(** ** The engines *)

Lemma scale_buffer_shape w buf ny nx :
  has_shape buf ny nx -> has_shape (scale_buffer w buf) ny nx.
Proof.
  intros [Hlen Hrows]. split.
  - unfold scale_buffer. by rewrite length_fmap.
  - unfold scale_buffer. rewrite Forall_fmap.
    eapply Forall_impl; [exact Hrows|]. intros row Hrow. simpl.
    by rewrite length_fmap.
Qed.

(** On an image without a row of pixels the channel loop of the sequential
    engine samples nothing. *)
Lemma single_channels_empty aw (l : list (nat * channel)) (st : run) :
  snd (shape (_pixels (cam st))) = 0%nat ->
  for_each (single_channel aw) l st = (st, Ok tt).
Proof.
  intros Hny. induction l as [|[i [[lo hi] ss]] l IH]; [done|].
  simpl. destruct (shape (_pixels (cam st))) as [nx ny] eqn:Hs.
  simpl in Hny. subst ny. simpl. exact IH.
Qed.

(** What [_observe_single] does, case by case: it raises before its first
    write, or (on an image without a row of pixels, with [self.rays]
    assigned) it scales the buffer and samples nothing. *)
Lemma observe_single_cases (self : Camera) wvl :
  (exists e, _observe_single self wvl = mkOutcome self [] [] (Raised e)) \/
  ((2 <= fst (shape (_pixels self)))%nat /\ snd (shape (_pixels self)) = 0%nat /\
   exists w,
     _observe_single self wvl
     = mkOutcome (set_xyz_frame (scale_buffer w (xyz_frame self)) self)
         [] [] Done).
Proof.
  unfold _observe_single. rewrite start_statistics_cases.
  destruct (decide (_ < 2)%nat) as [Hlt|Hge]; [left; by eexists|].
  destruct (decide (_ = 0%nat)) as [Hny|Hny]; [|left; by eexists].
  destruct (rays self) as [r|]; [|left; by eexists].
  destruct (py_div _ _) as [pw|e]; [|left; by eexists].
  destruct (py_div _ _) as [aw|e]; [|left; by eexists].
  right. split; [lia|]. split; [done|]. exists pw.
  by rewrite single_channels_empty.
Qed.

(** What [_observe_parallel] does, case by case: it raises before its
    first write, or (on an image without a row of pixels, with [self.rays]
    assigned) it scales the buffer and then returns, if there is no channel,
    or raises at [range(total_pixels)] with the processes of the first
    channel started. *)
Lemma observe_parallel_cases sched (self : Camera) wvl :
  (exists e, _observe_parallel sched self wvl = mkOutcome self [] [] (Raised e)) \/
  ((2 <= fst (shape (_pixels self)))%nat /\ snd (shape (_pixels self)) = 0%nat /\
   exists w pools s,
     _observe_parallel sched self wvl
     = mkOutcome (set_xyz_frame (scale_buffer w (xyz_frame self)) self)
         [] pools s /\
     Forall idle pools /\
     ((s = Done /\ wvl = [] /\ pools = []) \/
      (s = Raised TypeError /\ wvl <> []))).
Proof.
  unfold _observe_parallel, _observe_parallel_start.
  rewrite start_statistics_cases.
  destruct (decide (_ < 2)%nat) as [Hlt|Hge]; [left; by eexists|].
  destruct (decide (_ = 0%nat)) as [Hny|Hny]; [|left; by eexists].
  destruct (rays self) as [r|] eqn:Hr; [|left; by eexists].
  pose proof (total_pixels_cases self) as Htp.
  rewrite decide_False, decide_True in Htp by done.
  destruct (np_getitem (_pixels self) 0) as [row0|e]; simpl in Htp |- *;
    [|done].
  destruct (np_getitem (_pixels self) 1) as [row1|e]; simpl in Htp |- *;
    [|done].
  rewrite Htp. simpl. unfold get_rays. rewrite Hr. simpl.
  destruct (py_div _ _) as [pw|e]; [|left; by eexists].
  destruct (py_div _ _) as [aw|e]; [|left; by eexists].
  right. split; [lia|]. split; [done|]. exists pw.
  destruct wvl as [|[[lo hi] ss] wvl].
  - exists [], Done. rewrite par_run_settled; simpl; [|done|done].
    split; [done|]. split; [done|]. by left.
  - eexists [_], (Raised TypeError).
    unfold coordinator_step. simpl.
    rewrite par_run_settled; simpl.
    + split; [reflexivity|]. split; [|by right].
      constructor; [apply start_pool_idle|done].
    + done.
    + constructor; [apply start_pool_idle|done].
Qed.

(** ** [observe], case by case *)

(** A call of [observe] raises with the camera untouched, or (accumulating,
    on an image without a row of pixels) it scales the xyz buffer, samples
    nothing and then returns or raises; every pool it leaves is idle. *)
Lemma observe_cases sched (self : Camera) :
  (exists e, observe sched self = mkOutcome self [] [] (Raised e)) \/
  (accumulate self = true /\
   (2 <= fst (shape (_pixels self)))%nat /\ snd (shape (_pixels self)) = 0%nat /\
   exists w pools,
     Forall idle pools /\
     let scaled := set_xyz_frame (scale_buffer w (xyz_frame self)) self in
     ((exists e, observe sched self = mkOutcome scaled [] pools (Raised e)) \/
      observe sched self
      = mkOutcome
          (set_accumulated_samples
             (accumulated_samples self + pixel_samples self * spectral_rays self)
             scaled)
          [] pools Done)).
Proof.
  unfold observe. destruct (root self) as [world|]; [|left; by eexists].
  destruct (accumulate self) eqn:Hacc;
    [|rewrite reset_frames_raises; left; by eexists].
  destruct (_calc_wvl_channel_config self) as [wvl|e]; [|left; by eexists].
  destruct (_rebuild_pixels self) as [[]|e]; [|left; by eexists].
  destruct (decide (process_count self = 1)) as [Hpc|Hpc].
  - destruct (observe_single_cases self wvl) as [[e ->]|(Hx & Hy & w & ->)];
      [left; by eexists|].
    right. split; [done|]. split; [done|]. split; [done|].
    exists w, []. split; [done|]. by right.
  - destruct (observe_parallel_cases sched self wvl)
      as [[e ->]|(Hx & Hy & w & pools & s & -> & Hidle & Hs)];
      [left; by eexists|].
    right. split; [done|]. split; [done|]. split; [done|].
    exists w, pools. split; [done|].
    destruct Hs as [(-> & _)|(-> & _)]; simpl; [by right|left; by eexists].
Qed.

(** On an image with a pixel every call of [observe] raises and leaves the
    camera as it was. *)
Lemma observe_raises sched (self : Camera) :
  has_pixels self ->
  exists e, observe sched self = mkOutcome self [] [] (Raised e).
Proof.
  intros [_ Hy]. destruct (observe_cases sched self) as [H|(_ & _ & H0 & _)];
    [done|lia].
Qed.

(** *** The constructor *)

(** C7 (as the code has it): [Camera.__init__] validates nothing: for every
    argument combination it returns a camera that stores the spectral channel
    count, the pixel sample count and the worker count as given, with
    accumulation off, no samples accumulated and zeroed frame buffers. *)
Theorem init_accepts_every_configuration pixels sens ss sr ps pc parent_root :
  exists self,
    __init__ pixels sens ss sr ps pc parent_root = Ok self /\
    spectral_rays self = sr /\ pixel_samples self = ps /\
    process_count self = pc /\ spectral_samples self = ss /\
    _pixels self = np_empty pixels /\
    accumulate self = false /\ accumulated_samples self = 0 /\
    xyz_frame self = zeros (snd pixels) (fst pixels) /\
    frame self = zeros (snd pixels) (fst pixels) /\
    rays self = None.
Proof. eexists. split; [reflexivity|]. simpl. repeat split. Qed.

(** *** The channel planner *)





(** *** Passes *)

(** C1 (what the code does): on a camera whose image has a pixel no
    progressive pass folds a sample: every pass of every sequence raises,
    and after the last one the two frame buffers and the sample counter are
    what they were before the first. *)
Theorem progressive_passes_fold_nothing sched passes (self : Camera) :
  has_pixels self ->
  let r := observe_passes sched passes self in
  xyz_frame (fst r) = xyz_frame self /\
  frame (fst r) = frame self /\
  accumulated_samples (fst r) = accumulated_samples self /\
  length (snd r) = length passes /\
  Forall (fun s => exists e, s = Raised e) (snd r).
Proof.
  revert self. induction passes as [|[ps sr] passes IH]; intros self Hpx; simpl.
  - by repeat split.
  - destruct (observe_raises sched (set_sampling ps sr self)) as [e He];
      [exact Hpx|].
    rewrite He. simpl.
    specialize (IH (set_sampling ps sr self) Hpx). simpl in IH.
    destruct (observe_passes sched passes (set_sampling ps sr self))
      as [self' statuses]. simpl in *.
    destruct IH as (Hxyz & Hfr & Hacc & Hlen & Hall).
    repeat split; try done.
    + by rewrite Hlen.
    + constructor; [by eexists|done].
Qed.

(** C2 (what the code does): on a camera whose image has a pixel a pass
    computes no weight: the call raises, no cell of the xyz buffer has been
    scaled or added to, and the sample counter is still [A], not [A + N]. *)
Theorem observe_pass_applies_no_weight sched (self : Camera) :
  has_pixels self ->
  let out := observe sched self in
  (exists e, out_status out = Raised e) /\
  xyz_frame (out_cam out) = xyz_frame self /\
  accumulated_samples (out_cam out) = accumulated_samples self.
Proof.
  intros Hpx. destruct (observe_raises sched self Hpx) as [e ->]. simpl.
  split; [by eexists|done].
Qed.



(** C4 (what the code does): no call of [observe] passes any pixel
    coordinate to a sampling method, in either engine and under every
    schedule: the log of the sequential engine and the logs of all worker
    pools are empty, so on an image with a pixel every coordinate is
    omitted. *)
Theorem observe_samples_no_pixel sched (self : Camera) :
  all_calls (observe sched self) = [].
Proof.
  assert (Hidle : forall pools : list pool,
            Forall idle pools -> concat (pool_calls <$> pools) = []).
  { intros pools H. induction H as [|p pools (_ & _ & _ & Hc & _) _ IH];
      [done|]. rewrite fmap_cons. cbn [concat]. by rewrite Hc, IH. }
  unfold all_calls.
  destruct (observe_cases sched self)
    as [[e ->]|(_ & _ & _ & w & pools & Hp & [[e ->]| ->])];
    cbn [out_calls out_pools app]; [done|by apply Hidle|by apply Hidle].
Qed.

(** C5 (what the code does): the coordinator of the worker-pool engine
    never puts a sentinel.  On an image with a pixel it raises before it
    starts a process; in every case each pool it has started is left with
    an empty task queue and all its workers waiting at their first [get],
    and the call has then raised. *)
Theorem worker_pool_puts_no_sentinel sched (self : Camera) :
  let out := observe sched self in
  Forall (fun p => sentinels_put p = 0%nat /\ task_queue p = [] /\
                   Forall (fun w => w_state w = WaitTask) (workers p))
         (out_pools out) /\
  (out_pools out <> [] -> out_status out = Raised TypeError) /\
  (has_pixels self -> out_pools out = []).
Proof.
  assert (Hidle : forall pools : list pool,
            Forall idle pools ->
            Forall (fun p => sentinels_put p = 0%nat /\ task_queue p = [] /\
                             Forall (fun w => w_state w = WaitTask) (workers p))
                   pools).
  { intros pools H. eapply Forall_impl; [exact H|]. intros p Hp.
    split; [by apply idle_no_sentinel|].
    destruct Hp as (Hq & _ & _ & _ & Hw). split; [done|].
    eapply Forall_impl; [exact Hw|]. by intros w ->. }
  intros out. unfold out. clear out. split; [|split].
  - destruct (observe_cases sched self)
      as [[e ->]|(_ & _ & _ & w & pools & Hp & [[e ->]| ->])]; simpl;
      [done|by apply Hidle|by apply Hidle].
  - unfold observe. destruct (root self) as [world|]; [|done].
    destruct (accumulate self); [|by rewrite reset_frames_raises].
    destruct (_calc_wvl_channel_config self) as [wvl|e]; [|done].
    destruct (_rebuild_pixels self) as [[]|e]; [|done].
    destruct (decide (process_count self = 1)).
    + by destruct (observe_single_cases self wvl)
        as [[e' ->]|(_ & _ & w & ->)].
    + destruct (observe_parallel_cases sched self wvl)
        as [[e' ->]|(_ & _ & w & pools & s & -> & _ & [(-> & _ & ->)|(-> & _)])];
        done.
  - intros Hpx. by destruct (observe_raises sched self Hpx) as [e ->].
Qed.

(** C8 (what the code does): a call of [observe] with accumulation off
    does not forget the prior state: it raises at the reset and leaves the
    frame buffers and the counter it found, so two prior states that differ
    are left as different as they were. *)
Theorem observe_without_accumulation_keeps_prior_state
    sched (self : Camera) xyz fr n :
  accumulate self = false ->
  let out := observe sched (with_prior_state xyz fr n self) in
  (exists e, out_status out = Raised e) /\
  out_cam out = with_prior_state xyz fr n self.
Proof.
  intros Hacc.
  destruct (observe_cases sched (with_prior_state xyz fr n self))
    as [[e ->]|(Hacc' & _)]; simpl.
  - split; [by eexists|done].
  - simpl in Hacc'. congruence.
Qed.

(** C9 (what the code does): a call on a camera that is not connected
    raises [TypeError] and changes nothing; a call on a connected camera
    with accumulation off raises at the reset statement itself, before its
    first assignment, and leaves the pre-call state: the frame buffers are
    not zeroed and the counter is not cleared. *)
Theorem observe_failure_keeps_prior_state sched (self : Camera) :
  (root self = None ->
   observe sched self = mkOutcome self [] [] (Raised TypeError)) /\
  (root self <> None -> accumulate self = false ->
   observe sched self = mkOutcome self [] [] (Raised (dimension_error self))) /\
  (has_pixels self -> out_cam (observe sched self) = self).
Proof.
  split; [|split].
  - intros Hroot. unfold observe. by rewrite Hroot.
  - intros Hroot Hacc. unfold observe. destruct (root self) as [world|]; [|done].
    by rewrite Hacc, reset_frames_raises.
  - intros Hpx. by destruct (observe_raises sched self Hpx) as [e ->].
Qed.

(** ** Further properties of the code *)

(** X5: however a call of [observe] ends (it returns, it raises, or the
    worker-pool engine is still running), it has changed nothing of the
    camera but the two frame buffers and the sample counter: the
    configuration, the root and the [rays] attribute are as before. *)
Theorem observe_changes_buffers_and_counter_only sched (self : Camera) :
  let self' := out_cam (observe sched self) in
  self'
  = with_prior_state (xyz_frame self') (frame self') (accumulated_samples self')
      self.
Proof.
  destruct (observe_cases sched self)
    as [[e ->]|(_ & _ & _ & w & pools & _ & [[e ->]| ->])]; simpl;
    by destruct self.
Qed.

(** X6: [observe] keeps the frame buffers in the shape of the image: on a
    camera whose two buffers have shape [(ny, nx, 3)] they still have it
    after the call, however the call ends. *)
Theorem observe_keeps_buffer_shape sched (self : Camera) :
  well_shaped self -> well_shaped (out_cam (observe sched self)).
Proof.
  intros [Hxyz Hfr].
  destruct (observe_cases sched self)
    as [[e ->]|(_ & _ & _ & w & pools & _ & [[e ->]| ->])]; simpl; [done| |];
    (split; [by apply scale_buffer_shape|done]).
Qed.

(** X7: the sample counter moves only when a call returns, and then by
    exactly [pixel_samples * spectral_rays]; a call that raises leaves the
    counter it found, also with accumulation off: the statement that clears
    the counter is never reached. *)
Theorem observe_counter sched (self : Camera) :
  let out := observe sched self in
  accumulated_samples (out_cam out)
  = match out_status out with
    | Done => accumulated_samples self + pixel_samples self * spectral_rays self
    | _ => accumulated_samples self
    end.
Proof.
  by destruct (observe_cases sched self)
    as [[e ->]|(_ & _ & _ & w & pools & _ & [[e ->]| ->])].
Qed.

(** *** The progress statistics *)

(** One statement of a method that ends in a raise: it raises, or the
    method goes on. *)
Ltac bind_step :=
  match goal with
  | |- exists e, (?m ≫= _) = Raise e =>
      destruct m eqn:?; cbn [mbind result_bind]; [|by eexists]
  end.

Lemma truediv_by_row a l v :
  py_truediv a (NoneArray l) = Ok v -> exists k, v = NoneArray k.
Proof.
  unfold py_truediv, py_binop, elementwise, broadcast.
  destruct a as [n|q|l']; simpl.
  - destruct (decide _); [|done]. intros [= <-]. by eexists.
  - destruct (decide _); [|done]. intros [= <-]. by eexists.
  - repeat (destruct (decide _); simpl); try done;
      intros [= <-]; by eexists.
Qed.

(** X2: the progress line is never printed.  Whenever it is due,
    [_update_statistics] raises, whatever the statistics tuple and the
    pixel number: the line number is [math.ceil] of a quotient by a row of
    [self._pixels].  When it is not due, the tuple comes back with the ray
    counter increased by the sample's ray count. *)
Theorem update_statistics_never_prints (self : Camera)
    total_work total_pixels ray_count index pixel sample_ray_count :
  let r :=
    _update_statistics self (total_work, total_pixels, ray_count) index pixel
      sample_ray_count in
  (progress_due self index pixel = true -> exists e, r = Raise e) /\
  (progress_due self index pixel = false ->
   r = Ok (total_work, total_pixels, ray_count + sample_ray_count)).
Proof.
  cbv zeta. unfold _update_statistics. split; intros ->; [|reflexivity].
  do 6 bind_step. rewrite np_getitem_0.
  destruct (decide (0 < _)%nat); cbn [mbind result_bind]; [|by eexists].
  destruct (py_truediv _ (NoneArray _)) as [quotient|e] eqn:Hq;
    cbn [mbind result_bind]; [|by eexists].
  apply truediv_by_row in Hq as [k ->]. by eexists.
Qed.

(** *** A camera as constructed *)

(** X3: [observe] on a camera that comes straight from [Camera.__init__]
    never returns and leaves the camera as constructed.  Without a world
    above it the call raises [TypeError]; with one it raises at the reset of
    the frame buffers, where [self._pixels[1]] is no row ([IndexError], an
    image one pixel wide or less) or a row and not a dimension
    ([TypeError]). *)
Theorem constructed_camera_cannot_observe
    pixels sens ss sr ps pc parent_root sched self :
  __init__ pixels sens ss sr ps pc parent_root = Ok self ->
  observe sched self
  = mkOutcome self [] []
      (Raised match parent_root with
              | None => TypeError
              | Some _ =>
                  if decide (fst pixels < 2)%nat then IndexError else TypeError
              end).
Proof.
  intros [= <-]. unfold observe. cbn [root accumulate].
  destruct parent_root as [world|]; [|done].
  by rewrite reset_frames_raises.
Qed.

(** *** The producer *)

(** X4: the producer process never puts a task.  [nx, ny = self._pixels]
    unpacks the rows of the array and raises [ValueError] unless there are
    exactly two; with two, [range(ny)] is given a row and raises
    [TypeError].  The pool of every channel therefore starts with nothing
    for the producer to put. *)
Theorem producer_puts_nothing (self : Camera) cfg curves :
  (exists e, _producer self = Raise e /\
             (e = ValueError <-> fst (shape (_pixels self)) <> 2%nat) /\
             (e = TypeError <-> fst (shape (_pixels self)) = 2%nat)) /\
  producer_todo (start_pool self cfg curves) = [] /\
  producer_step (start_pool self cfg curves) = start_pool self cfg curves.
Proof.
  split; [|split].
  - rewrite producer_raises. eexists. split; [reflexivity|].
    by destruct (decide _).
  - apply start_pool_idle.
  - apply idle_producer_step, start_pool_idle.
Qed.

(** *** The engines on their own *)

(** X19: called on a camera whose image has a pixel, each engine raises at
    its first statement that reads [self._pixels] as image dimensions
    ([_start_statistics]): the camera is untouched, no sampling call is
    made and no process is started, under every schedule. *)
Theorem engines_raise_before_first_write sched (self : Camera) wvl :
  has_pixels self ->
  _observe_single self wvl = mkOutcome self [] [] (Raised (dimension_error self)) /\
  _observe_parallel sched self wvl
  = mkOutcome self [] [] (Raised (dimension_error self)).
Proof.
  intros Hpx. unfold _observe_single, _observe_parallel, _observe_parallel_start.
  by rewrite (start_statistics_raises self Hpx).
Qed.

(** *** One worker *)

(** X17: one turn of the loop of [_worker].  A waiting worker that takes a
    pixel task and answers it removes that task from the head of the task
    queue, appends one result for the same pixel to the result queue and is
    waiting again; a waiting worker that takes a sentinel exits, and from
    then on it never takes a task or sends a result, whatever is left in the
    task queue. *)
Theorem worker_turn chan i p n q :
  workers p !! i = Some (mkWorker WaitTask n) ->
  (forall x y,
     task_queue p = Some (x, y) :: q ->
     let p' := worker_put chan i (worker_get i p) in
     let xyz :=
       spectrum_to_ciexyz
         (fst (_sample_pixel x y (fst (fst (pool_channel p)))
                 (snd (fst (pool_channel p))) (snd (pool_channel p))
                 (pool_world p)))
         (pool_curves p) in
     task_queue p' = q /\
     (exists ray_count,
        result_queue p' = result_queue p ++ [(x, y, xyz, ray_count)]) /\
     pool_calls p' = pool_calls p ++ [mkCall chan x y xyz] /\
     workers p' = workers p /\
     producer_todo p' = producer_todo p) /\
  (task_queue p = None :: q ->
   let p' := worker_get i p in
   task_queue p' = q /\
   workers p' = <[i := mkWorker Exited (S n)]> (workers p) /\
   result_queue p' = result_queue p /\
   forall chan', worker_get i p' = p' /\ worker_put chan' i p' = p').
Proof.
  intros Hw. split.
  - intros x y Hq p' xyz. unfold p', xyz, worker_get. rewrite Hw, Hq.
    unfold worker_put. cbn [workers pool_channel pool_world pool_curves
      task_queue result_queue producer_todo pool_calls].
    rewrite list_lookup_insert_eq by by eapply lookup_lt_Some.
    destruct (pool_channel p) as [[lo hi] ss]. cbn [fst snd].
    destruct (_sample_pixel x y lo hi ss (pool_world p)) as [spectrum rc].
    cbn [fst workers pool_channel pool_world pool_curves
      task_queue result_queue producer_todo pool_calls].
    split; [done|]. split; [by eexists|]. split; [done|]. split; [|done].
    rewrite list_insert_insert_eq. by apply list_insert_id.
  - intros Hq p'.
    assert (Hg : p' = mkPool (pool_channel p) (pool_curves p) (pool_world p) q
                        (result_queue p) (producer_todo p)
                        (<[i := mkWorker Exited (S n)]> (workers p))
                        (pool_calls p)).
    { unfold p', worker_get. by rewrite Hw, Hq. }
    rewrite Hg. cbn [workers task_queue result_queue].
    split; [done|]. split; [done|]. split; [done|]. intros chan'.
    unfold worker_get, worker_put. cbn [workers].
    by rewrite list_lookup_insert_eq by by eapply lookup_lt_Some.
Qed.

(** *** The pinhole camera *)

(** A [PinholeCamera] cannot be constructed: for every argument
    combination [PinholeCamera.__init__] raises [TypeError], because it
    passes the keyword [rays] to [Camera.__init__], which has no such
    parameter. *)
Lemma pinhole_camera_cannot_be_constructed
    pixels fov sens ss r ps sub pc parent_root :
  PinholeCamera__init__ pixels fov sens ss r ps sub pc parent_root
  = Raise TypeError.
Proof. reflexivity. Qed.

(** C10 (what the code does): on an image with a pixel
    [_setup_pixel_config] returns no tuple: it raises [TypeError] at
    [max(self._pixels)], which compares two rows of the array, or, on an
    image one pixel wide, at [max_pixels > 1], which compares a row with
    1. *)
Theorem setup_pixel_config_raises (self : PinholeCamera) :
  has_pixels (base self) -> _setup_pixel_config self = Raise TypeError.
Proof.
  intros [Hx Hy]. unfold _setup_pixel_config, py_max.
  destruct (fst (shape (_pixels (base self)))) as [|[|nx]]; [lia| |];
    simpl; unfold elementwise, broadcast.
  - by rewrite decide_False by lia.
  - rewrite decide_True by done. simpl. by rewrite decide_False by lia.
Qed.

End Camera.

(** ** Concrete cameras and runs *)

Module Example.

(** Collaborators for concrete runs: a spectrum is the tristimulus triplet
    it converts to, and the display colour is the triplet itself. *)
Definition resample (lo hi : PrimFloat.float) (ss : Z) : unit := tt.
Definition to_xyz (spectrum : triplet) (curves : unit) : triplet := spectrum.
Definition to_srgb (xyz : triplet) : triplet := xyz.

(** The geometry hook of a derived class that implements it. *)
Definition hook_ok (self : @Camera unit) : result unit := Ok tt.

(** Two clocks: on a fast machine less than a second passes between two
    progress updates, on a slow one more. *)
Definition never_due (self : @Camera unit) (index : nat) (pixel : value) : bool :=
  false.
Definition always_due (self : @Camera unit) (index : nat) (pixel : value) : bool :=
  true.

(** A worker sampling method that returns the spectrum [s] for every pixel
    and channel, with a ray count of 10. *)
Definition constant_worker (s : triplet) (x y : nat) (lo hi : PrimFloat.float)
    (ss : Z) (world : option unit) : triplet * Z := (s, 10).

Definition one3 : triplet := (1%Qc, 1%Qc, 1%Qc).

(** [observe] on an object of class [Camera] itself, and on an object of a
    derived class whose geometry hook returns. *)
Definition observe_base (sched : list label) (self : @Camera unit)
  : @outcome unit unit :=
  observe resample to_xyz to_srgb (constant_worker one3)
    Camera_rebuild_pixels never_due sched self.

Definition observe_derived (sched : list label) (self : @Camera unit)
  : @outcome unit unit :=
  observe resample to_xyz to_srgb (constant_worker one3) hook_ok never_due
    sched self.

(** The camera [Camera(pixels, 1.0, 20, spectral_rays, pixel_samples,
    process_count, parent)] under a world. *)
Definition constructed (pixels : nat * nat)
    (spectral_rays pixel_samples process_count : Z) : @Camera unit :=
  match __init__ pixels 1%Qc 20 spectral_rays pixel_samples process_count
          (Some tt) with
  | Ok self => self
  | Raise _ =>
      mkCamera None 0 0 PrimFloat.zero PrimFloat.zero 0%Qc 0 0 false 0%Qc 0
        (np_empty (0, 0)%nat) 0%Qc 0 false 0 [] [] None
  end.

(** A 2 by 2 sequential camera with one channel and one sample per pixel,
    as constructed; the same camera made progressive by its user; and the
    progressive camera with the [rays] attribute assigned. *)
Definition camera_2x2 : @Camera unit := constructed (2, 2)%nat 1 1 1.

Definition camera_progressive : @Camera unit := set_accumulate true camera_2x2.

Definition camera_with_rays : @Camera unit :=
  set_rays (Some 1) camera_progressive.

(** A prior state of the 2 by 2 camera: every cell 1, nine samples. *)
Definition ones : list (list triplet) := replicate 2 (replicate 2 one3).

(** A pinhole object around a 1 by 1 camera, with arbitrary geometry
    collaborators. *)
Definition pinhole_1x1 : @PinholeCamera unit :=
  mkPinholeCamera (constructed (1, 1)%nat 1 1 1) (Qc_of_Z 45) false.

Definition setup (self : @PinholeCamera unit)
  : result (unit * value * value * value) :=
  _setup_pixel_config (fun x => x) (Qc_of_Z 3) (fun _ _ _ => tt)
    (fun p _ => p) (fun _ => tt) self.

End Example.

(** ** The statements at concrete inputs *)

Import Example.

Lemma camera_2x2_has_pixels : has_pixels camera_2x2.
Proof. split; simpl; lia. Qed.

Lemma camera_2x2_well_shaped : well_shaped camera_2x2.
Proof. split; (split; [reflexivity|by repeat constructor]). Qed.

(** C1 at two progressive passes of the 2 by 2 camera, the second with two
    channels. *)
Lemma progressive_passes_fold_nothing_witness :
  let r :=
    observe_passes resample to_xyz to_srgb (constant_worker one3)
      Camera_rebuild_pixels never_due [] [(1, 1); (1, 2)] camera_progressive in
  xyz_frame (fst r) = xyz_frame camera_progressive /\
  frame (fst r) = frame camera_progressive /\
  accumulated_samples (fst r) = accumulated_samples camera_progressive /\
  length (snd r) = 2%nat /\
  Forall (fun s => exists e, s = Raised e) (snd r).
Proof.
  apply (progressive_passes_fold_nothing resample to_xyz to_srgb
           (constant_worker one3) Camera_rebuild_pixels never_due []
           [(1, 1); (1, 2)] camera_progressive).
  split; simpl; lia.
Defined.

(** Where the two passes end: on class [Camera] at the virtual geometry
    hook; in a derived class whose hook returns, at the statistics start;
    and on the camera as constructed (accumulation off) at the reset. *)
Example progressive_passes_evaluated :
  snd (observe_passes resample to_xyz to_srgb (constant_worker one3)
         Camera_rebuild_pixels never_due [] [(1, 1); (1, 2)] camera_progressive)
  = [Raised NotImplementedError; Raised NotImplementedError] /\
  snd (observe_passes resample to_xyz to_srgb (constant_worker one3) hook_ok
         never_due [] [(1, 1); (1, 2)] camera_with_rays)
  = [Raised TypeError; Raised TypeError] /\
  snd (observe_passes resample to_xyz to_srgb (constant_worker one3)
         Camera_rebuild_pixels never_due [] [(1, 1); (1, 2)] camera_2x2)
  = [Raised TypeError; Raised TypeError].
Proof. by vm_compute. Qed.

(** C2 at a pass of the 2 by 2 camera as constructed. *)
Lemma observe_pass_applies_no_weight_witness :
  let out := observe_base [] camera_2x2 in
  (exists e, out_status out = Raised e) /\
  xyz_frame (out_cam out) = xyz_frame camera_2x2 /\
  accumulated_samples (out_cam out) = accumulated_samples camera_2x2.
Proof.
  apply (observe_pass_applies_no_weight resample to_xyz to_srgb
           (constant_worker one3) Camera_rebuild_pixels never_due []
           camera_2x2).
  split; simpl; lia.
Defined.

(** How calls of [observe] end: on the 2 by 2 camera as constructed and on
    a 1 by 1 camera, at the reset; on the progressive camera at the virtual
    geometry hook; in a derived class whose hook returns, at the statistics
    start, with either engine, whether [rays] is assigned or not. *)
Example observe_evaluated :
  out_status (observe_base [] camera_2x2) = Raised TypeError /\
  out_status (observe_base [] (constructed (1, 1)%nat 1 1 1))
  = Raised IndexError /\
  out_status (observe_base [] camera_progressive)
  = Raised NotImplementedError /\
  out_status (observe_derived [] camera_progressive) = Raised TypeError /\
  out_status (observe_derived [] camera_with_rays) = Raised TypeError /\
  out_status (observe_derived [Coordinator] (set_process_count 2 camera_with_rays))
  = Raised TypeError /\
  out_status
    (observe_derived []
       (set_accumulate true (set_rays (Some 1) (constructed (1, 1)%nat 1 1 1))))
  = Raised IndexError.
Proof. by vm_compute. Qed.




(** The last channel can end short of [max_wavelength]: 49 channels over
    the range 0 to 1. *)
Example last_channel_misses_max_wavelength :
  exists config lo hi s,
    _calc_wvl_channel_config
      (set_wavelengths (float_of_int 0) (float_of_int 1)
         (constructed (512, 512)%nat 49 100 1)) = Ok config /\
    last config = Some (lo, hi, s) /\
    PrimFloat.ltb hi (float_of_int 1) = true.
Proof.
  eexists _, _, _, _. split; [by vm_compute|]. split; [by vm_compute|].
  by vm_compute.
Qed.

(** Over the range the constructor sets, 375 to 740, and up to 64 channels
    the planner's channels do cover the range exactly and in order: the
    first starts at 375, the last ends at 740, and every channel starts
    below its end. *)
Example constructed_range_is_covered :
  forallb
    (fun R =>
       match _calc_wvl_channel_config (constructed (512, 512)%nat R 100 1) with
       | Ok config =>
           match head config, last config with
           | Some (lo, _, _), Some (_, hi, _) =>
               PrimFloat.eqb lo (float_of_int 375)
               && PrimFloat.eqb hi (float_of_int 740)
               && forallb (fun c : channel =>
                             PrimFloat.ltb (fst (fst c)) (snd (fst c))) config
           | _, _ => false
           end
       | Raise _ => false
       end)
    (Z.of_nat <$> seq 1 64)
  = true.
Proof. by vm_compute. Qed.

(** C7: the constructor accepts a configuration with no channel, no sample
    and no worker. *)
Lemma init_accepts_zero_counts :
  exists self : @Camera unit,
    __init__ (512, 512)%nat 1%Qc 20 0 0 0 (Some tt) = Ok self /\
    spectral_rays self = 0 /\ pixel_samples self = 0 /\ process_count self = 0.
Proof. eexists. split; [reflexivity|]. by simpl. Qed.

(** C8 at the 2 by 2 camera holding a prior frame of ones and nine
    samples. *)
Lemma observe_without_accumulation_keeps_prior_state_witness :
  let out := observe_base [] (with_prior_state ones ones 9 camera_2x2) in
  (exists e, out_status out = Raised e) /\
  out_cam out = with_prior_state ones ones 9 camera_2x2.
Proof.
  apply (observe_without_accumulation_keeps_prior_state resample to_xyz
           to_srgb (constant_worker one3) Camera_rebuild_pixels never_due []
           camera_2x2 ones ones 9).
  reflexivity.
Defined.

(** The same call, evaluated: [TypeError], the counter still 9 and the
    cell at the origin still 1. *)
Example observe_without_accumulation_evaluated :
  let out := observe_base [] (with_prior_state ones ones 9 camera_2x2) in
  out_status out = Raised TypeError /\
  accumulated_samples (out_cam out) = 9 /\
  cell_eqb (cell (xyz_frame (out_cam out)) 0 0) one3 = true.
Proof. by vm_compute. Qed.

(** C10 at a pinhole object around a 1 by 1 camera. *)
Lemma setup_pixel_config_raises_witness : setup pinhole_1x1 = Raise TypeError.
Proof.
  apply (setup_pixel_config_raises (fun x => x) (Qc_of_Z 3) (fun _ _ _ => tt)
           (fun p _ => p) (fun _ => tt) pinhole_1x1).
  split; simpl; lia.
Defined.

(** ** The further properties at concrete inputs *)

(** X2 on a slow machine: the progress line after the first pixel of a
    four-pixel image, with an integer statistics tuple. *)
Example progress_line_raises :
  _update_statistics always_due camera_2x2 (Int 4, Int 4, 0) 0 (Int 0) 10
  = Raise AttributeError /\
  _update_statistics always_due camera_with_rays (Int 4, Int 4, 0) 0 (Int 0) 10
  = Raise TypeError.
Proof. by vm_compute. Qed.

(** X3 at [Camera(pixels=(2, 2))] under a world. *)
Lemma constructed_camera_cannot_observe_witness :
  observe_base [] camera_2x2 = mkOutcome camera_2x2 [] [] (Raised TypeError).
Proof.
  apply (constructed_camera_cannot_observe resample to_xyz to_srgb
           (constant_worker one3) Camera_rebuild_pixels never_due
           (2, 2)%nat 1%Qc 20 1 1 1 (Some tt) [] camera_2x2 eq_refl).
Defined.

(** X6 at a call on the 2 by 2 camera. *)
Lemma observe_keeps_buffer_shape_witness :
  well_shaped (out_cam (observe_base [] camera_2x2)).
Proof.
  apply (observe_keeps_buffer_shape resample to_xyz to_srgb
           (constant_worker one3) Camera_rebuild_pixels never_due []
           camera_2x2 camera_2x2_well_shaped).
Defined.

(** X19 at the 2 by 2 camera and one channel. *)
Lemma engines_raise_before_first_write_witness :
  _observe_single resample to_xyz to_srgb never_due camera_2x2
    [(float_of_int 375, float_of_int 740, 20)]
  = mkOutcome camera_2x2 [] [] (Raised TypeError).
Proof.
  apply (proj1 (engines_raise_before_first_write resample to_xyz to_srgb
                  (constant_worker one3) never_due [] camera_2x2
                  [(float_of_int 375, float_of_int 740, 20)]
                  camera_2x2_has_pixels)).
Defined.

(** X17 at a pool with one waiting worker and one task. *)
Lemma worker_turn_witness :
  let p : @pool unit unit :=
    mkPool (float_of_int 0, float_of_int 1, 20) tt (Some tt)
      [Some (1, 0)%nat] [] [] [mkWorker WaitTask 0] [] in
  task_queue (worker_put to_xyz (constant_worker one3) 0 0 (worker_get 0 p))
  = [].
Proof.
  intros p.
  apply (proj1 (worker_turn to_xyz (constant_worker one3) 0 0 p 0 [] eq_refl)
           1%nat 0%nat eq_refl).
Defined.

